(** * HK Tennis Court Sniper (app.py): model and properties

    The script is re-executed from top to bottom on every interaction.  One
    execution is modelled as one pure pass over explicit inputs: the payload
    of the data source, the state of the sidebar widgets, the monitor
    checkbox and the store behind [st.cache_data]. *)

From stdpp Require Import base option list sorting strings gmap.
From Stdlib Require Import ZArith Lia Ascii.

Set Warnings "-register-all".

Local Open Scope Z_scope.

(** ** JSON values, as produced by [r.json()] *)

Module Json.

Inductive json : Type :=
  | JNull
  | JBool (b : bool)
  | JNum (z : Z)
  | JStr (s : string)
  | JList (l : list json)
  | JDict (d : gmap string json).

(** [isinstance(v, list)], returning the items when it holds. *)
Definition as_list (v : json) : option (list json) :=
  match v with
  | JList l => Some l
  | _ => None
  end.

End Json.
Import Json.

(** ** [extract_records] *)

Definition RECORD_KEYS : list string :=
  ["data"; "contents"; "result"; "items"; "records"].

(** The [for key in (...)] loop of [extract_records] over a dict [d]:
    [if key in raw and isinstance(raw[key], list): return raw[key]];
    falling out of the loop reaches the final [return []]. *)
Fixpoint scan_keys (keys : list string) (d : gmap string json) : list json :=
  match keys with
  | [] => []
  | key :: rest =>
      match d !! key with
      | Some (JList l) => l
      | _ => scan_keys rest d
      end
  end.

Definition extract_records (raw : json) : list json :=
  match raw with
  | JList l => l
  | JDict d => scan_keys RECORD_KEYS d
  | _ => []
  end.

(** [key in raw and isinstance(raw[key], list)] *)
Definition list_valued (d : gmap string json) (key : string) : Prop :=
  ∃ l, d !! key = Some (JList l).

(** ** [fetch_data] behind [st.cache_data(ttl=1800)] *)

Module Fetch.

(** What [requests.get(...)], [raise_for_status()] and [r.json()] can do:
    raise a [RequestException], raise [ValueError]/[TypeError] while
    decoding, or hand back the decoded payload. *)
Inductive reply : Type :=
  | RequestException
  | DecodeError
  | Payload (raw : json).

(** The body of [fetch_data]: both [except] arms [return None]. *)
Definition fetch_data_body (r : reply) : option (list json) :=
  match r with
  | Payload raw => Some (extract_records raw)
  | RequestException => None
  | DecodeError => None
  end.

Definition TTL : Z := 1800.

(** The memoised entry of the argument-less [fetch_data]: the returned
    object, whatever it is, with the time it was stored. *)
Record entry : Type := Entry {
  stored_at : Z;
  value : option (list json)
}.

Definition store : Type := option entry.

Record call : Type := Call {
  result : option (list json);
  store_after : store;
  source_invoked : bool
}.

(** A miss runs the body and memoises what it returned. *)
Definition miss (now : Z) (src : reply) : call :=
  let v := fetch_data_body src in
  Call v (Some (Entry now v)) true.

(** One call [fetch_data()] at time [now]; [src] is what the data source
    would answer if asked.  An entry younger than [TTL] is replayed. *)
Definition fetch_data (now : Z) (src : reply) (c : store) : call :=
  match c with
  | Some e =>
      if bool_decide (now - stored_at e < TTL)
      then Call (value e) c false
      else miss now src
  | None => miss now src
  end.

(** [fetch_data.clear()], behind the Refresh Data button. *)
Definition clear (c : store) : store := None.

(** The rule of the specification for a failing call followed by a call
    inside the TTL window: the second call asks the data source again. *)
Definition retried_after_failure (now1 : Z) (src1 : reply) (c : store)
    (now2 : Z) (src2 : reply) : Prop :=
  let k1 := fetch_data now1 src1 c in
  source_invoked k1 = true →
  result k1 = None →
  now1 ≤ now2 < now1 + TTL →
  source_invoked (fetch_data now2 src2 (store_after k1)) = true.

End Fetch.

(** ** The data frame *)

(** A cell of the [Available_Courts] column, by what
    [pd.to_numeric(..., errors="coerce")] makes of it.  Reading text as a
    number is the library's work and is taken as given: a cell comes with
    its reading. *)
Inductive count_cell : Type :=
  | CMissing
    (* the record has no such key; NaN in a frame that has the column *)
  | CNull
    (* null: NaN *)
  | CText
    (* text that does not read as a number: NaN under errors="coerce" *)
  | CInt (z : Z)
    (* a finite number, given as a number or as text that reads as one;
       [z] is the 64-bit integer that [astype(int)] keeps of it *)
  | CInf.
    (* a number that is not finite, as the text inf reads *)

(** A value of the column between the three calls of line 125; a finite
    one is carried as the integer that the cast will keep of it. *)
Inductive numeric : Type :=
  | Finite (z : Z)
  | NaN
  | Infinite.

(** [pd.to_numeric(..., errors="coerce")] on one cell. *)
Definition to_numeric (c : count_cell) : numeric :=
  match c with
  | CInt z => Finite z
  | CInf => Infinite
  | CText => NaN
  | CNull => NaN
  | CMissing => NaN
  end.

(** [.fillna(0)] *)
Definition fillna0 (v : numeric) : numeric :=
  match v with
  | NaN => Finite 0
  | _ => v
  end.

(** [.astype(int)] on one value; [None] where it raises
    IntCastingNaNError. *)
Definition astype_int (v : numeric) : option Z :=
  match v with
  | Finite z => Some z
  | NaN => None
  | Infinite => None
  end.

(** Whether line 125 gets past the cell. *)
Definition castable (c : count_cell) : bool :=
  bool_decide (is_Some (astype_int (fillna0 (to_numeric c)))).

(** The count that line 125 leaves for the cell.  Where [astype(int)]
    raises there is no frame: [load_frame] ends the run there, and the 0
    written here only keeps the function total. *)
Definition coerce_count (c : count_cell) : Z :=
  default 0 (astype_int (fillna0 (to_numeric c))).

(** A cell of one of the four text columns as it arrives: the key may be
    absent from the record, hold [null], or a string. *)
Inductive text_cell : Type :=
  | TMissing
  | TNull
  | TStr (s : string).

(** The cell as the frame holds it; [None] is NaN. *)
Definition text (c : text_cell) : option string :=
  match c with
  | TStr s => Some s
  | TNull => None
  | TMissing => None
  end.

(** A record of the feed. *)
Record record : Type := Record_ {
  raw_district : text_cell;
  raw_venue : text_cell;
  raw_date : text_cell;
  raw_time : text_cell;
  raw_count : count_cell
}.

(** Whether the record has the key at all. *)
Definition carries_text (c : text_cell) : bool :=
  match c with
  | TMissing => false
  | _ => true
  end.

Definition carries_count (c : count_cell) : bool :=
  match c with
  | CMissing => false
  | _ => true
  end.

(** [pd.DataFrame(raw_records)] has a column for a key when some record
    carries the key. *)
Definition has_column {A} (cell : record → A) (carries : A → bool)
    (raw_records : list record) : bool :=
  existsb (λ r, carries (cell r)) raw_records.

(** A row of [df] after line 125, in a frame that has the five columns. *)
Record row : Type := Row {
  District_Name_EN : option string;
  Venue_Name_EN : option string;
  Available_Date : option string;
  Session_Start_Time : option string;
  Available_Courts : Z
}.

Global Instance row_eq_dec : EqDecision row.
Proof. solve_decision. Defined.

Definition clean (r : record) : row :=
  Row (text (raw_district r)) (text (raw_venue r)) (text (raw_date r))
      (text (raw_time r)) (coerce_count (raw_count r)).

(** [df] with the coerced [Available_Courts] column. *)
Definition DataFrame (raw_records : list record) : list row :=
  clean <$> raw_records.

(** [df[df["Available_Courts"] > 0]] *)
Definition available_df (df : list row) : list row :=
  filter (fun r => 0 < Available_Courts r) df.

(** What ends a run before the filters are through: the warning of line
    118, the [KeyError] of [df[column]] on a frame without that column, the
    error of [astype(int)] on a count that is not finite, the notice of line
    131. *)
Inductive halt : Type :=
  | NoDataLoaded
  | KeyError (column : string)
  | IntCastingNaNError
  | NoAvailability.

(** Lines 117-173 on the fetched records: the available rows that reach the
    filters, or what ended the run.  Line 125 reads the
    [Available_Courts] column and then casts it, lines 138, 151, 162 and
    173 read the four text columns, in this order. *)
Definition load_frame (raw_records : list record) : halt + list row :=
  match raw_records with
  | [] => inl NoDataLoaded
  | _ =>
      if negb (has_column raw_count carries_count raw_records)
      then inl (KeyError "Available_Courts")
      else if negb (forallb (λ r, castable (raw_count r)) raw_records)
      then inl IntCastingNaNError
      else
        match available_df (DataFrame raw_records) with
        | [] => inl NoAvailability
        | available =>
            if negb (has_column raw_district carries_text raw_records)
            then inl (KeyError "District_Name_EN")
            else if negb (has_column raw_venue carries_text raw_records)
            then inl (KeyError "Venue_Name_EN")
            else if negb (has_column raw_date carries_text raw_records)
            then inl (KeyError "Available_Date")
            else if negb (has_column raw_time carries_text raw_records)
            then inl (KeyError "Session_Start_Time")
            else inr available
        end
  end.

Definition column : Type := row -> option string.

(** [df[col].isin(values)] as a row mask: a missing cell is in no list. *)
Definition isin (values : list string) (c : option string) : bool :=
  match c with
  | Some v => bool_decide (v ∈ values)
  | None => false
  end.

(** [df[df[col].isin(values)]] *)
Definition select (col : column) (values : list string) (df : list row)
  : list row :=
  filter (fun r => isin values (col r)) df.

(** [if selected: df = df[df[col].isin(selected)]], else [df] stays. *)
Definition narrow (col : column) (selected : list string) (df : list row)
  : list row :=
  match selected with
  | [] => df
  | _ => select col selected df
  end.

(** The row mask that [narrow] applies. *)
Definition keeps (selected : list string) (c : option string) : bool :=
  match selected with
  | [] => true
  | _ => isin selected c
  end.

(** [.unique()]: distinct values in order of first appearance. *)
Fixpoint unique (l : list string) : list string :=
  match l with
  | [] => []
  | x :: t => x :: filter (fun y => y ≠ x) (unique t)
  end.

(** [df[col].dropna()] *)
Definition dropna (col : column) (df : list row) : list string :=
  omap col df.

(** [sorted(df[col].dropna().unique())] *)
Definition sorted_options (col : column) (df : list row) : list string :=
  merge_sort String.le (unique (dropna col df)).

(** [v] is the value of column [col] on some row of [df] with at least one
    court left. *)
Definition bookable (df : list row) (col : column) (v : string) : Prop :=
  ∃ r, r ∈ df ∧ 1 ≤ Available_Courts r ∧ col r = Some v.

(** ** Sidebar widgets *)

(** [st.sidebar.multiselect(label, options=, default=, key=)].  Until the
    user touches the widget ([None]) it holds [default]; afterwards the
    browser reports the ticked entries by their position in [options], and
    the widget hands back the entries of [options] found there. *)
Definition multiselect (options default : list string)
    (ticked : option (list nat)) : list string :=
  match ticked with
  | None => default
  | Some positions => omap (fun i => options !! i) positions
  end.

(** [all_districts[:1] if all_districts else []] *)
Definition default_districts (all_districts : list string) : list string :=
  match all_districts with
  | [] => []
  | _ => take 1 all_districts
  end.

(** [venue_options[:3] if len(venue_options) <= 5 else []] *)
Definition default_venues (venue_options : list string) : list string :=
  if bool_decide (length venue_options ≤ 5)%nat
  then take 3 venue_options else [].

(** [date_options[:5] if len(date_options) <= 10 else []] *)
Definition default_dates (date_options : list string) : list string :=
  if bool_decide (length date_options ≤ 10)%nat
  then take 5 date_options else [].

(** [default=time_options] *)
Definition default_times (time_options : list string) : list string :=
  time_options.

(** The policy of the specification for a dimension after the first: the
    default is every option or no option. *)
Definition all_or_nothing (default : list string → list string)
    (options : list string) : Prop :=
  default options = options ∨ default options = [].

(** ** The cascading filters *)

Module Funnel.

(** Step 1 *)
Definition all_districts (available : list row) : list string :=
  sorted_options District_Name_EN available.

(** Step 2: [scope_df] restricted to the selected districts. *)
Definition venue_scope (available : list row) (districts : list string)
  : list row :=
  narrow District_Name_EN districts available.

Definition venue_options (available : list row) (districts : list string)
  : list string :=
  sorted_options Venue_Name_EN (venue_scope available districts).

(** Step 3 *)
Definition date_scope (available : list row) (districts venues : list string)
  : list row :=
  narrow Venue_Name_EN venues (venue_scope available districts).

Definition date_options (available : list row)
    (districts venues : list string) : list string :=
  sorted_options Available_Date (date_scope available districts venues).

(** Step 4 *)
Definition time_scope (available : list row)
    (districts venues dates : list string) : list row :=
  narrow Available_Date dates (date_scope available districts venues).

Definition time_options (available : list row)
    (districts venues dates : list string) : list string :=
  sorted_options Session_Start_Time
    (time_scope available districts venues dates).

(** Lines 182-190: the final frame, from all four selections. *)
Definition filtered_df (available : list row)
    (districts venues dates times : list string) : list row :=
  narrow Session_Start_Time times
    (narrow Available_Date dates
      (narrow Venue_Name_EN venues
        (narrow District_Name_EN districts available))).

(** What the user did to the four multiselects. *)
Record sidebar : Type := Sidebar {
  snipe_district : option (list nat);
  snipe_venue : option (list nat);
  snipe_date : option (list nat);
  snipe_time : option (list nat)
}.

(** A sidebar nobody has touched: every multiselect holds its default. *)
Definition untouched : sidebar := Sidebar None None None None.

(** Everything lines 138-190 compute. *)
Record outcome : Type := Outcome {
  options_district : list string;
  selected_districts : list string;
  options_venue : list string;
  selected_venues : list string;
  options_date : list string;
  selected_dates : list string;
  options_time : list string;
  selected_times : list string;
  filtered : list row
}.

Definition compute (available : list row) (ui : sidebar) : outcome :=
  let o1 := all_districts available in
  let s1 := multiselect o1 (default_districts o1) (snipe_district ui) in
  let o2 := venue_options available s1 in
  let s2 := multiselect o2 (default_venues o2) (snipe_venue ui) in
  let o3 := date_options available s1 s2 in
  let s3 := multiselect o3 (default_dates o3) (snipe_date ui) in
  let o4 := time_options available s1 s2 s3 in
  let s4 := multiselect o4 (default_times o4) (snipe_time ui) in
  Outcome o1 s1 o2 s2 o3 s3 o4 s4 (filtered_df available s1 s2 s3 s4).

(** The spec's reading of one level: an empty selection lets every row
    through; otherwise the selection is first intersected with the level's
    options and the row's value has to be in what is left. *)
Definition corrected (selection options : list string) : list string :=
  filter (fun v => v ∈ options) selection.

Definition level_passes (selection options : list string)
    (c : option string) : bool :=
  match selection with
  | [] => true
  | _ => isin (corrected selection options) c
  end.

(** The four levels, for statements that range over them. *)
Inductive level : Type := District | Venue | Date | Time.

Definition dimension (l : level) : column :=
  match l with
  | District => District_Name_EN
  | Venue => Venue_Name_EN
  | Date => Available_Date
  | Time => Session_Start_Time
  end.

Record selection : Type := Selection {
  districts : list string;
  venues : list string;
  dates : list string;
  times : list string
}.

Definition final_df (available : list row) (s : selection) : list row :=
  filtered_df available (districts s) (venues s) (dates s) (times s).

(** The options offered at a level, given the selections above it. *)
Definition options_at (available : list row) (s : selection) (l : level)
  : list string :=
  match l with
  | District => all_districts available
  | Venue => venue_options available (districts s)
  | Date => date_options available (districts s) (venues s)
  | Time => time_options available (districts s) (venues s) (dates s)
  end.

(** [s] with the selection of level [l] replaced. *)
Definition choose (l : level) (values : list string) (s : selection)
  : selection :=
  match l with
  | District => Selection values (venues s) (dates s) (times s)
  | Venue => Selection (districts s) values (dates s) (times s)
  | Date => Selection (districts s) (venues s) values (times s)
  | Time => Selection (districts s) (venues s) (dates s) values
  end.

(** Pass-through at level [l]: selecting nothing there and selecting all of
    the level's options give the same final frame. *)
Definition pass_through (available : list row) (s : selection) (l : level)
  : Prop :=
  final_df available (choose l [] s)
  = final_df available (choose l (options_at available s l) s).

End Funnel.

(** ** Live monitor and alerts *)

Module Monitor.

(** [target_found = not filtered_df.empty] *)
Definition target_found (filtered_df : list row) : bool :=
  match filtered_df with
  | [] => false
  | _ => true
  end.

(** [venue_names[0] if venue_names else "Court"] over
    [filtered_df["Venue_Name_EN"].dropna().unique().tolist()] *)
Definition msg_venue (filtered_df : list row) : string :=
  match unique (dropna Venue_Name_EN filtered_df) with
  | v :: _ => v
  | [] => "Court"
  end.

(** The body text built by [js_show_notification]. *)
Definition notification_body (venue_name : string) : string :=
  "Go book at " +:+ venue_name +:+ " now!".

(** [st.session_state]: the script keeps [last_checked] and nothing else. *)
Record session_state : Type := Session {
  last_checked : option Z
}.

Definition initial : session_state := Session None.

(** What one run of the script is given. *)
Record run : Type := Run {
  clock : Z;
  enable_live_monitor : bool;
  filtered_df : list row
}.

(** Lines 200-213 of one run: the state after it and the notification it
    asks the browser to show, if any. *)
Definition tick (st : session_state) (x : run)
  : session_state * option string :=
  let st' := Session (Some (clock x)) in
  if enable_live_monitor x && target_found (filtered_df x)
  then (st', Some (notification_body (msg_venue (filtered_df x))))
  else (st', None).

(** Whether a run fires a notification. *)
Definition notifies (st : session_state) (x : run) : bool :=
  bool_decide (is_Some (snd (tick st x))).

(** Successive runs in one session, with the decision taken at each. *)
Fixpoint ticks (st : session_state) (xs : list run) : list bool :=
  match xs with
  | [] => []
  | x :: rest => notifies st x :: ticks (fst (tick st x)) rest
  end.

(** Lines 221-226: the run sleeps 60 s and reruns itself only while the
    monitor is on and nothing matched. *)
Definition reruns_after_sleep (x : run) : bool :=
  enable_live_monitor x && negb (target_found (filtered_df x)).

(** The rule of the specification, for comparison: fire on a rising edge
    of the match signal. *)
Definition rising_edge (last_match current_match : bool) : bool :=
  current_match && negb last_match.

Fixpoint rising_edges (last_match : bool) (matches : list bool) : list bool :=
  match matches with
  | [] => []
  | m :: rest => rising_edge last_match m :: rising_edges m rest
  end.

(** A monitored run whose filtered frame is empty or not, as [m] says. *)
Definition a_row : row := Row (Some "A") (Some "V1") (Some "2024-01-01")
                              (Some "19:00") 2.

Definition run_with_match (t : Z) (m : bool) : run :=
  Run t true (if m then [a_row] else []).

(** The five runs of the specification's example. *)
Definition five_runs : list run :=
  zip_with run_with_match [1; 2; 3; 4; 5] [false; true; true; false; true].

(** The specification's rule, stated of a sequence of runs. *)
Definition edge_triggered (xs : list run) : Prop :=
  ticks initial xs
  = rising_edges false ((λ x, target_found (filtered_df x)) <$> xs).

End Monitor.

(** ** The scenario of the specification *)

Module Scenario.

Definition v1 : record :=
  Record_ (TStr "A") (TStr "V1") (TStr "2024-01-01") (TStr "19:00")
    (CInt 2).

Definition v2 : record :=
  Record_ (TStr "A") (TStr "V2") (TStr "2024-01-01") (TStr "20:00")
    (CInt 0).

Definition available : list row := available_df (DataFrame [v1; v2]).

(** District A ticked, the other three multiselects cleared. *)
Definition ui : Funnel.sidebar :=
  Funnel.Sidebar (Some [0%nat]) (Some []) (Some []) (Some []).

Definition outcome : Funnel.outcome := Funnel.compute available ui.

(** A feed where one record has no venue. *)
Definition with_venue : record :=
  Record_ (TStr "A") (TStr "V1") (TStr "2024-01-01") (TStr "19:00")
    (CInt 1).

Definition no_venue : record :=
  Record_ (TStr "A") TNull (TStr "2024-01-01") (TStr "19:00") (CInt 1).

Definition available_no_venue : list row :=
  available_df (DataFrame [with_venue; no_venue]).

Definition district_A : Funnel.selection := Funnel.Selection ["A"] [] [] [].

(** A feed where no record has the [Available_Courts] key. *)
Definition no_count : record :=
  Record_ (TStr "A") (TStr "V1") (TStr "2024-01-01") (TStr "19:00")
    CMissing.

(** The same record next to one that has the key. *)
Definition feed_with_count : list record := [no_count; with_venue].

(** A record whose count reads as a number that is not finite. *)
Definition inf_count : record :=
  Record_ (TStr "A") (TStr "V1") (TStr "2024-01-01") (TStr "19:00") CInf.

End Scenario.

(** ** Successive calls of [fetch_data] *)

Module Polling.




End Polling.

(** ** The page below the sidebar *)

Module Page.

(** Lines 221-230: the notice that nothing matches, with the 60 s sleep and
    rerun when the monitor is on, or the table under its count. *)
Inductive view : Type :=
  | NoSlots (sleep_and_rerun : bool)
  | Found (count : nat) (table : list row).

Definition render (x : Monitor.run) : view :=
  match Monitor.filtered_df x with
  | [] => NoSlots (Monitor.enable_live_monitor x)
  | table => Found (length table) table
  end.

(** What a run leaves behind: the session state, the notification it asked
    for and the page it drew. *)
Record pass : Type := Pass {
  session : Monitor.session_state;
  alert : option string;
  shown : view
}.

(** Lines 117-230 of one run at time [now], from the fetched records, the
    sidebar and the monitor checkbox.  A run that stops early leaves the
    session as it was. *)
Definition script (raw_records : list record) (ui : Funnel.sidebar)
    (enable_live_monitor : bool) (now : Z) (st : Monitor.session_state)
  : halt + pass :=
  match load_frame raw_records with
  | inl h => inl h
  | inr available =>
      let x := Monitor.Run now enable_live_monitor
                 (Funnel.filtered (Funnel.compute available ui)) in
      inr (Pass (fst (Monitor.tick st x)) (snd (Monitor.tick st x))
             (render x))
  end.

End Page.

(** The five columns present in a feed. *)
Definition five_columns (raw_records : list record) : bool :=
  has_column raw_count carries_count raw_records
  && has_column raw_district carries_text raw_records
  && has_column raw_venue carries_text raw_records
  && has_column raw_date carries_text raw_records
  && has_column raw_time carries_text raw_records.

(** The selection that restricts nothing. *)
Definition unrestricted : Funnel.selection := Funnel.Selection [] [] [] [].

(** ** [js_show_notification] *)

Module Notify.

Local Open Scope N_scope.

(** A Python [str], as its code points. *)
Definition str : Type := list N.

Definition quote : ascii := "034"%char.

Definition backslash : ascii := "092"%char.

(** ASCII text of the script as a [str]. *)
Definition literal (s : string) : str :=
  N_of_ascii <$> String.list_ascii_of_string s.

(** [body = f"Go book at {venue_name} now!"] *)
Definition body (venue_name : str) : str :=
  literal "Go book at " ++ venue_name ++ literal " now!".

(** One digit of ['{0:04x}'.format(n)]. *)
Definition hex_digit (d : N) : ascii :=
  ascii_of_N (if d <? 10 then 48 + d else 87 + d).

(** ['{0:04x}'.format(n)]; the encoder passes it numbers below 0x10000
    only, which have four digits. *)
Definition hex4 (n : N) : string :=
  String (hex_digit (n / 4096 mod 16))
    (String (hex_digit (n / 256 mod 16))
      (String (hex_digit (n / 16 mod 16))
        (String (hex_digit (n mod 16)) EmptyString))).

Definition u_escape (n : N) : string :=
  String backslash (String "u" (hex4 n)).

(** [ESCAPE_ASCII]: what the encoder replaces is a backslash, a quote,
    and everything outside space to tilde. *)
Definition must_escape (n : N) : bool :=
  (n =? 92) || (n =? 34) || (n <? 32) || (126 <? n).

(** [ESCAPE_DCT] and the [replace] callback of the encoder that
    [json.dumps] uses for strings (ensure_ascii is on by default). *)
Definition replace (n : N) : string :=
  if n =? 92 then String backslash (String backslash EmptyString)
  else if n =? 34 then String backslash (String quote EmptyString)
  else if n =? 8 then String backslash "b"
  else if n =? 12 then String backslash "f"
  else if n =? 10 then String backslash "n"
  else if n =? 13 then String backslash "r"
  else if n =? 9 then String backslash "t"
  else if n <? 65536 then u_escape n
  else
    let m := n - 65536 in
    u_escape (N.lor 55296 (N.land (N.shiftr m 10) 1023))
    +:+ u_escape (N.lor 56320 (N.land m 1023)).

Definition encode_char (n : N) : string :=
  if must_escape n then replace n else String (ascii_of_N n) EmptyString.

Fixpoint encode_chars (s : str) : string :=
  match s with
  | [] => EmptyString
  | n :: t => encode_char n +:+ encode_chars t
  end.

(** [json.dumps(body)] for a [str]: the escaped text between two quotes. *)
Definition dumps (s : str) : string :=
  String quote (encode_chars s +:+ String quote EmptyString).

(** [body_escaped], the one part of the returned script that varies. *)
Definition body_escaped (venue_name : str) : string :=
  dumps (body venue_name).

(** Characters from space to tilde. *)
Definition printable (c : ascii) : bool :=
  (32 <=? N_of_ascii c) && (N_of_ascii c <=? 126).

Fixpoint all_printable (s : string) : bool :=
  match s with
  | EmptyString => true
  | String c t => printable c && all_printable t
  end.

(** Code points that go into the literal as they are. *)
Definition plain (n : N) : bool :=
  (32 <=? n) && (n <=? 126) && negb (n =? 34) && negb (n =? 92).

(** The same text as bytes. *)
Fixpoint ascii_text (s : str) : string :=
  match s with
  | [] => EmptyString
  | n :: t => String (ascii_of_N n) (ascii_text t)
  end.

(** *** Decoding a JSON string *)

(** What follows is the inverse of the encoder, for stating a round trip:
    the decoding of a JSON string by the rules of the JSON grammar, which
    a JavaScript engine shares for a double-quoted literal of such text.
    It says nothing of the HTML parser, which meets the text of a script
    element before any of this applies. *)

(** The UTF-16 code units of a code point, which is what the [\u] escapes
    of JSON denote: itself below 0x10000, else a high and a low
    surrogate. *)
Definition utf16_units (n : N) : list N :=
  if n <? 65536 then [n]
  else [55296 + (n - 65536) / 1024; 56320 + (n - 65536) mod 1024].

Definition utf16 (s : str) : list N := s ≫= utf16_units.

Definition hex_value (c : ascii) : option N :=
  let n := N_of_ascii c in
  if (48 <=? n) && (n <=? 57) then Some (n - 48)
  else if (97 <=? n) && (n <=? 102) then Some (n - 87)
  else if (65 <=? n) && (n <=? 70) then Some (n - 55)
  else None.

Definition hex4_value (a b c d : ascii) : option N :=
  x3 ← hex_value a; x2 ← hex_value b; x1 ← hex_value c; x0 ← hex_value d;
  Some (4096 * x3 + 256 * x2 + 16 * x1 + x0).

(** The single-character escapes of JSON. *)
Definition simple_escape (c : ascii) : option N :=
  let n := N_of_ascii c in
  if n =? 34 then Some 34
  else if n =? 92 then Some 92
  else if n =? 47 then Some 47
  else if n =? 98 then Some 8
  else if n =? 102 then Some 12
  else if n =? 110 then Some 10
  else if n =? 114 then Some 13
  else if n =? 116 then Some 9
  else None.

Definition push (u : N) (r : option (list N * string))
  : option (list N * string) :=
  (λ p, (u :: fst p, snd p)) <$> r.

(** Decoding a JSON string of ASCII text from behind its opening quote:
    the code units it denotes and the text after its closing quote.  A bare
    quote closes it, a backslash starts an escape, a raw character outside
    space to tilde is not accepted. *)
Fixpoint read_chars (s : string) : option (list N * string) :=
  match s with
  | EmptyString => None
  | String c t =>
      let n := N_of_ascii c in
      if n =? 34 then Some ([], t)
      else if n =? 92 then
        match t with
        | EmptyString => None
        | String e t' =>
            if N_of_ascii e =? 117 then
              match t' with
              | String h3 (String h2 (String h1 (String h0 t''))) =>
                  u ← hex4_value h3 h2 h1 h0; push u (read_chars t'')
              | _ => None
              end
            else u ← simple_escape e; push u (read_chars t')
        end
      else if (32 <=? n) && (n <=? 126) then push n (read_chars t)
      else None
  end.

Definition read_literal (s : string) : option (list N * string) :=
  match s with
  | String c t => if N_of_ascii c =? 34 then read_chars t else None
  | EmptyString => None
  end.

End Notify.

(** ** The funnel, level by level *)

Module Levels.

Import Funnel.






End Levels.

(** * Properties *)

(** ** [extract_records] *)

Section ExtractRecords.

Implicit Types (d : gmap string json) (keys : list string).

Lemma scan_keys_skip d keys rest :
  (∀ k, k ∈ keys → ¬ list_valued d k) →
  scan_keys (keys ++ rest) d = scan_keys rest d.
Proof.
  induction keys as [|k keys IH]; intros Hno; [done|].
  cbn [app scan_keys].
  assert (¬ list_valued d k) as Hk by (apply Hno; left).
  rewrite IH by (intros k' ?; apply Hno; by right).
  destruct (d !! k) as [[]|] eqn:E; try done.
  destruct Hk. by eexists.
Qed.

Lemma scan_keys_first d before key after l :
  (∀ k, k ∈ before → ¬ list_valued d k) →
  d !! key = Some (JList l) →
  scan_keys (before ++ key :: after) d = l.
Proof.
  intros Hno Hkey. rewrite scan_keys_skip by done.
  cbn [scan_keys]. by rewrite Hkey.
Qed.

Lemma scan_keys_none d keys :
  (∀ k, k ∈ keys → ¬ list_valued d k) → scan_keys keys d = [].
Proof.
  intros Hno. rewrite <- (app_nil_r keys). by rewrite scan_keys_skip.
Qed.

End ExtractRecords.

(** C5: a list response is returned as it is; for an object, the first key
    of data, contents, result, items, records (in this order) that holds a
    list gives the result; an object where none of them holds a list gives
    the empty sequence. *)
Theorem extract_records_contract :
  (∀ l, extract_records (JList l) = l)
  ∧ (∀ d before key after l,
       RECORD_KEYS = before ++ key :: after →
       (∀ k, k ∈ before → ¬ list_valued d k) →
       d !! key = Some (JList l) →
       extract_records (JDict d) = l)
  ∧ (∀ d, (∀ k, k ∈ RECORD_KEYS → ¬ list_valued d k) →
          extract_records (JDict d) = []).
Proof.
  split; [done|split].
  - intros d before key after l Hkeys Hno Hkey.
    cbn [extract_records]. rewrite Hkeys. by apply scan_keys_first.
  - intros d Hno. by apply scan_keys_none.
Qed.

(** An object whose "data" is a string and whose "result" and "items" are
    lists: "result" wins. *)
Lemma extract_records_contract_witness :
  extract_records
    (JDict (<["data" := JStr "x"]>
           (<["result" := JList [JNum 1]]>
           (<["items" := JList [JNum 2]]> ∅))))
  = [JNum 1].
Proof.
  destruct extract_records_contract as (_ & Hfirst & _).
  apply (Hfirst _ ["data"; "contents"] "result" ["items"; "records"]).
  - reflexivity.
  - intros k Hk [l Hl].
    apply elem_of_cons in Hk as [->|Hk]; [by vm_compute in Hl|].
    apply elem_of_cons in Hk as [->|Hk]; [by vm_compute in Hl|].
    by apply elem_of_nil in Hk.
  - by vm_compute.
Defined.

(** C9: [extract_records] gives a result on every JSON value: anything that
    is neither a list nor an object, and any object whose candidate keys hold
    no list, gives the empty list. *)
Theorem extract_records_total (raw : json) :
  (∃ l, extract_records raw = l)
  ∧ (as_list raw = None →
     (∀ d, raw = JDict d → ∀ k, k ∈ RECORD_KEYS → ¬ list_valued d k) →
     extract_records raw = []).
Proof.
  split; [by eexists|].
  intros Hl Hd. destruct raw; try done.
  apply scan_keys_none. by apply Hd.
Qed.

Lemma extract_records_total_witness :
  extract_records JNull = []
  ∧ extract_records (JNum 7) = []
  ∧ extract_records (JStr "data") = []
  ∧ extract_records (JBool true) = []
  ∧ extract_records (JDict (<["data" := JStr "down"]> ∅)) = [].
Proof.
  split; [|split; [|split; [|split]]].
  - apply (extract_records_total JNull); [done|]. intros d Hd. discriminate.
  - apply (extract_records_total (JNum 7)); [done|]. intros d Hd. discriminate.
  - apply (extract_records_total (JStr "data")); [done|].
    intros d Hd. discriminate.
  - apply (extract_records_total (JBool true)); [done|].
    intros d Hd. discriminate.
  - apply (extract_records_total (JDict (<["data" := JStr "down"]> ∅)));
      [done|].
    intros d [= <-] k Hk [l Hl].
    repeat (apply elem_of_cons in Hk as [->|Hk]; [by vm_compute in Hl|]).
    by apply elem_of_nil in Hk.
Defined.

(** ** Available rows *)

Lemma elem_of_available_df (df : list row) (r : row) :
  r ∈ available_df df ↔ r ∈ df ∧ 1 ≤ Available_Courts r.
Proof.
  unfold available_df. rewrite list_elem_of_filter. split.
  - intros [Hpos Hin]. split; [done|lia].
  - intros [Hin Hpos]. split; [lia|done].
Qed.

(** ** Frames without a column *)

Lemma has_column_false {A} (cell : record → A) (carries : A → bool)
    (raw_records : list record) :
  (∀ r, r ∈ raw_records → carries (cell r) = false) →
  has_column cell carries raw_records = false.
Proof.
  intros Hnone. unfold has_column.
  induction raw_records as [|r rs IH]; [done|].
  cbn [existsb]. rewrite Hnone by left. cbn [orb].
  apply IH. intros r' Hr'. apply Hnone. by right.
Qed.

(** When no record of a feed carries [Available_Courts], line 125 raises. *)
Lemma load_frame_no_count (raw_records : list record) :
  raw_records ≠ [] →
  (∀ r, r ∈ raw_records → raw_count r = CMissing) →
  load_frame raw_records = inl (KeyError "Available_Courts").
Proof.
  intros Hne Hall. destruct raw_records as [|r rs]; [done|].
  unfold load_frame. rewrite has_column_false; [done|].
  intros r' Hr'. by rewrite (Hall r' Hr').
Qed.

(** A run that reaches the filters works on the available rows. *)
Lemma load_frame_inr (raw_records : list record) (available : list row) :
  load_frame raw_records = inr available →
  available = available_df (DataFrame raw_records) ∧ available ≠ [].
Proof.
  unfold load_frame. destruct raw_records as [|r rs]; [done|].
  destruct (negb (has_column raw_count _ _)); [done|].
  destruct (negb (forallb _ _)); [done|].
  destruct (available_df (DataFrame (r :: rs))) as [|x xs]; [done|].
  repeat (match goal with |- context [if ?b then _ else _] => destruct b end;
          [done|]).
  by intros [= <-].
Qed.

(** Both feeds of the scenarios reach the filters. *)
Example scenarios_load :
  load_frame [Scenario.v1; Scenario.v2] = inr Scenario.available
  ∧ load_frame [Scenario.with_venue; Scenario.no_venue]
    = inr Scenario.available_no_venue.
Proof. split; reflexivity. Qed.

(** A count that is not finite ends the run at the cast of line 125, even
    next to a row with a court left. *)
Example non_finite_count_raises :
  load_frame [Scenario.inf_count; Scenario.with_venue]
  = inl IntCastingNaNError.
Proof. reflexivity. Qed.

(** C6, where the code departs from it: on a feed in which no record has
    the [Available_Courts] key the frame has no such column and line 125
    raises [KeyError], where the claim has every such record coerced to
    count 0 without an error; next to a record that has the key, the same
    record is read as 0 and left out of the available rows. *)
Theorem missing_count_column_raises :
  load_frame [Scenario.no_count] = inl (KeyError "Available_Courts")
  ∧ load_frame Scenario.feed_with_count = inr [clean Scenario.with_venue]
  ∧ coerce_count (raw_count Scenario.no_count) = 0.
Proof. repeat split. Qed.

(** ** Rows that enter the funnel *)

Lemma narrow_filter (col : column) (selected : list string) (df : list row) :
  narrow col selected df = filter (λ r, keeps selected (col r)) df.
Proof.
  destruct selected as [|v selected]; [|done].
  cbn [narrow keeps]. induction df as [|r df IH]; [done|].
  rewrite filter_cons_True by done. by rewrite <- IH.
Qed.

Lemma elem_of_narrow (col : column) (selected : list string)
    (df : list row) (r : row) :
  r ∈ narrow col selected df ↔ r ∈ df ∧ keeps selected (col r).
Proof. rewrite narrow_filter, list_elem_of_filter. tauto. Qed.

Lemma narrow_subseteq (col : column) (selected : list string)
    (df : list row) :
  narrow col selected df ⊆ df.
Proof. intros r Hr. by apply elem_of_narrow in Hr as [? _]. Qed.

Lemma filtered_df_subseteq (available : list row)
    (s1 s2 s3 s4 : list string) :
  Funnel.filtered_df available s1 s2 s3 s4 ⊆ available.
Proof.
  unfold Funnel.filtered_df.
  repeat (etrans; [apply narrow_subseteq|]). done.
Qed.

Lemma elem_of_unique (l : list string) (x : string) : x ∈ unique l ↔ x ∈ l.
Proof.
  induction l as [|a l IH]; [done|].
  cbn [unique]. rewrite !elem_of_cons, list_elem_of_filter, IH.
  destruct (decide (x = a)) as [->|Hne]; [by split; [left|left]|].
  split; [intros [?|[_ ?]]; [by left|by right]|].
  intros [?|?]; [by left|by right].
Qed.

Lemma elem_of_sorted_options (col : column) (df : list row) (v : string) :
  v ∈ sorted_options col df ↔ ∃ r, r ∈ df ∧ col r = Some v.
Proof.
  unfold sorted_options, dropna.
  rewrite merge_sort_Permutation, elem_of_unique.
  apply list_elem_of_omap.
Qed.

Lemma msg_venue_row (filtered_df : list row) :
  Monitor.msg_venue filtered_df = "Court"
  ∨ ∃ r, r ∈ filtered_df
         ∧ Venue_Name_EN r = Some (Monitor.msg_venue filtered_df).
Proof.
  unfold Monitor.msg_venue.
  destruct (unique (dropna Venue_Name_EN filtered_df)) as [|v l] eqn:E;
    [by left|right].
  assert (v ∈ unique (dropna Venue_Name_EN filtered_df)) as Hv
    by (rewrite E; left).
  rewrite elem_of_unique in Hv. by apply list_elem_of_omap in Hv.
Qed.

(** C10: after the coercion and the pre-filter every row that enters the
    funnel has a count of at least 1, and so has every row of the filtered
    frame and the row a notification names; a row is kept exactly when its
    coerced count is not zero or below, negative counts going the way of
    zero. *)
Theorem funnel_input_strictly_positive (raw_records : list record)
    (ui : Funnel.sidebar) :
  let available := available_df (DataFrame raw_records) in
  let filtered := Funnel.filtered (Funnel.compute available ui) in
  Forall (λ r, 1 ≤ Available_Courts r) available
  ∧ Forall (λ r, 1 ≤ Available_Courts r) filtered
  ∧ (Monitor.msg_venue filtered = "Court"
     ∨ ∃ r, r ∈ filtered
            ∧ Venue_Name_EN r = Some (Monitor.msg_venue filtered)
            ∧ 1 ≤ Available_Courts r)
  ∧ (∀ r, r ∈ available
          ↔ r ∈ DataFrame raw_records ∧ ¬ Available_Courts r ≤ 0).
Proof.
  intros available filtered.
  assert (Forall (λ r, 1 ≤ Available_Courts r) available) as Hav.
  { apply Forall_forall. intros r Hr.
    by apply elem_of_available_df in Hr as [_ ?]. }
  assert (Forall (λ r, 1 ≤ Available_Courts r) filtered) as Hfi.
  { apply Forall_forall. intros r Hr.
    apply filtered_df_subseteq in Hr.
    by apply (proj1 (Forall_forall _ _) Hav). }
  split; [done|split; [done|split]].
  - destruct (msg_venue_row filtered) as [?|(r & Hr & Hv)]; [by left|right].
    exists r. split; [done|split; [done|]].
    by apply (proj1 (Forall_forall _ _) Hfi).
  - intros r. unfold available. rewrite elem_of_available_df.
    split; intros [? ?]; (split; [done|lia]).
Qed.

(** ** The funnel *)

Section FunnelFacts.

Import Funnel.

Implicit Types (available df : list row) (r : row).
Implicit Types (options default selected : list string).

Lemma multiselect_subseteq options default (ticked : option (list nat)) :
  default ⊆ options → multiselect options default ticked ⊆ options.
Proof.
  intros Hdefault. destruct ticked as [positions|]; [|done].
  intros v Hv. cbn [multiselect] in Hv.
  apply list_elem_of_omap in Hv as (i & _ & Hi).
  by apply list_elem_of_lookup_2 in Hi.
Qed.

Lemma default_districts_subseteq options : default_districts options ⊆ options.
Proof. destruct options; [done|]. apply subseteq_take. Qed.

Lemma default_venues_subseteq options : default_venues options ⊆ options.
Proof.
  unfold default_venues. case_bool_decide; [apply subseteq_take|].
  intros v Hv. by apply elem_of_nil in Hv.
Qed.

Lemma default_dates_subseteq options : default_dates options ⊆ options.
Proof.
  unfold default_dates. case_bool_decide; [apply subseteq_take|].
  intros v Hv. by apply elem_of_nil in Hv.
Qed.

Lemma corrected_subseteq selected options :
  selected ⊆ options → corrected selected options = selected.
Proof.
  unfold corrected. induction selected as [|v selected IH]; [done|].
  intros Hsub. rewrite filter_cons_True by (apply Hsub; left).
  f_equal. apply IH. intros x Hx. apply Hsub. by right.
Qed.

Lemma level_passes_keeps selected options (c : option string) :
  selected ⊆ options → level_passes selected options c = keeps selected c.
Proof.
  intros Hsub. unfold level_passes, keeps.
  destruct selected; [done|]. by rewrite corrected_subseteq.
Qed.

Lemma filtered_df_filter available (s1 s2 s3 s4 : list string) :
  filtered_df available s1 s2 s3 s4
  = filter (λ r, keeps s1 (District_Name_EN r) && keeps s2 (Venue_Name_EN r)
                 && keeps s3 (Available_Date r)
                 && keeps s4 (Session_Start_Time r)) available.
Proof.
  unfold filtered_df. rewrite !narrow_filter, !list_filter_filter.
  apply list_filter_iff. intros r.
  rewrite !andb_True. tauto.
Qed.

End FunnelFacts.

Section Consistency.

Import Funnel Levels.

Implicit Types (available scope : list row) (r : row) (s : selection).






End Consistency.


(** ** Empty selections *)

Section PassThrough.

Import Funnel.

Implicit Types (available : list row) (r : row) (s : selection) (l : level).

Lemma elem_of_filtered_df available (s1 s2 s3 s4 : list string) r :
  r ∈ filtered_df available s1 s2 s3 s4
  ↔ r ∈ available
    ∧ keeps s1 (District_Name_EN r) ∧ keeps s2 (Venue_Name_EN r)
    ∧ keeps s3 (Available_Date r) ∧ keeps s4 (Session_Start_Time r).
Proof.
  rewrite filtered_df_filter, list_elem_of_filter, !andb_True. tauto.
Qed.

Lemma filter_all {A} (P : A → Prop) `{!∀ x, Decision (P x)} (xs : list A) :
  (∀ x, x ∈ xs → P x) → filter P xs = xs.
Proof.
  induction xs as [|x xs IH]; [done|]. intros HP.
  rewrite filter_cons_True by (apply HP; left).
  f_equal. apply IH. intros y Hy. apply HP. by right.
Qed.

(** Selecting [values] at a level filters what the empty selection lets
    through by that level's mask. *)
Lemma final_df_choose available s l (values : list string) :
  final_df available (choose l values s)
  = filter (λ r, keeps values (dimension l r))
      (final_df available (choose l [] s)).
Proof.
  unfold final_df. rewrite !filtered_df_filter, list_filter_filter.
  apply list_filter_iff. intros r.
  destruct l; cbn [choose districts venues dates times dimension keeps];
    rewrite !andb_True; cbn [Is_true]; tauto.
Qed.

(** A row that passes the levels above [l] has its value among the options
    of [l]. *)
Lemma value_in_options available s l r (v : string) :
  r ∈ final_df available (choose l [] s) →
  dimension l r = Some v →
  v ∈ options_at available s l.
Proof.
  unfold final_df. rewrite elem_of_filtered_df.
  intros (Hin & H1 & H2 & H3 & H4) Hv.
  destruct l; cbn [choose districts venues dates times dimension] in *;
    cbn [options_at]; apply elem_of_sorted_options; exists r;
    (split; [|done]);
    unfold time_scope, date_scope, venue_scope;
    rewrite ?elem_of_narrow; tauto.
Qed.

Lemma keeps_nonempty (values : list string) (c : option string) :
  values ≠ [] → keeps values c → ∃ v, c = Some v ∧ v ∈ values.
Proof.
  destruct values as [|x values]; [done|]. intros _.
  destruct c as [v|]; [|done]. cbn [keeps isin].
  intros Hv%bool_decide_unpack. by exists v.
Qed.

Lemma keeps_member (values : list string) (v : string) :
  v ∈ values → keeps values (Some v).
Proof.
  intros Hv. destruct values as [|x values]; [done|].
  cbn [keeps isin]. by apply bool_decide_pack.
Qed.

Lemma pass_through_iff available s l :
  pass_through available s l
  ↔ options_at available s l = []
    ∨ ∀ r, r ∈ final_df available (choose l [] s) → is_Some (dimension l r).
Proof.
  unfold pass_through.
  rewrite (final_df_choose available s l (options_at available s l)).
  split.
  - intros Heq.
    destruct (decide (options_at available s l = [])) as [?|Hne];
      [by left|right].
    intros r Hr. rewrite Heq in Hr.
    apply list_elem_of_filter in Hr as [Hk _].
    apply keeps_nonempty in Hk as (v & -> & _); [by eexists|done].
  - intros [->|Hall].
    + symmetry. by apply filter_all.
    + symmetry. apply filter_all. intros r Hr.
      destruct (Hall r Hr) as [v Hv]. rewrite Hv.
      apply keeps_member. by eapply value_in_options.
Qed.

End PassThrough.

(** C4, as the code has it: when every available row that passes the other
    levels carries a value for a level's dimension, leaving that level empty
    and selecting all of its options give the same filtered frame. *)
Theorem empty_selection_pass_through (available : list row)
    (s : Funnel.selection) (l : Funnel.level) :
  (∀ r, r ∈ Funnel.final_df available (Funnel.choose l [] s) →
        is_Some (Funnel.dimension l r)) →
  Funnel.pass_through available s l.
Proof. intros Hall. apply pass_through_iff. by right. Qed.

Lemma empty_selection_pass_through_witness :
  Funnel.pass_through Scenario.available_no_venue Scenario.district_A
    Funnel.Date.
Proof.
  apply empty_selection_pass_through.
  intros r Hr. vm_compute in Hr.
  apply elem_of_cons in Hr as [->|Hr]; [by eexists|].
  apply elem_of_cons in Hr as [->|Hr]; [by eexists|].
  by apply elem_of_nil in Hr.
Defined.

(** C4 fails as stated: a row without a venue passes the empty venue
    selection and fails the selection of every venue option. *)
Lemma empty_selection_pass_through_counterexample :
  ¬ Funnel.pass_through Scenario.available_no_venue Scenario.district_A
      Funnel.Venue.
Proof. intros H. vm_compute in H. discriminate. Qed.

(** ** The availability pre-filter *)

Lemma options_bookable (df : list row) (col : column) (scope : list row) :
  scope ⊆ available_df df → Forall (bookable df col) (sorted_options col scope).
Proof.
  intros Hsub. apply Forall_forall. intros v Hv.
  apply elem_of_sorted_options in Hv as (r & Hr & Hc).
  apply Hsub, elem_of_available_df in Hr as [Hin Hpos].
  by exists r.
Qed.

(** C7, as the code has it: a row with no court left is dropped before the
    funnel, so it is in no filtered frame and every option of every level is
    the value of a row with at least one court left; in the scenario with
    district A selected and nothing else, the venue options are V1 alone and
    the filtered frame is the V1 row alone. *)
Theorem zero_availability_prefilter (raw_records : list record)
    (ui : Funnel.sidebar) :
  let df := DataFrame raw_records in
  let o := Funnel.compute (available_df df) ui in
  Forall (λ r, (r ∉ available_df df) ∧ (r ∉ Funnel.filtered o))
    (filter (λ r, Available_Courts r = 0) df)
  ∧ Forall (bookable df District_Name_EN) (Funnel.options_district o)
  ∧ Forall (bookable df Venue_Name_EN) (Funnel.options_venue o)
  ∧ Forall (bookable df Available_Date) (Funnel.options_date o)
  ∧ Forall (bookable df Session_Start_Time) (Funnel.options_time o)
  ∧ Funnel.options_venue Scenario.outcome = ["V1"]
  ∧ Funnel.filtered Scenario.outcome = [clean Scenario.v1].
Proof.
  intros df o. split; [|repeat split].
  - apply Forall_forall. intros r [H0 _]%list_elem_of_filter.
    assert (r ∉ available_df df) as Hout.
    { rewrite elem_of_available_df. intros [_ ?]. lia. }
    split; [done|]. intros Hr. by apply filtered_df_subseteq in Hr.
  - by apply options_bookable.
  - apply options_bookable, narrow_subseteq.
  - apply options_bookable. unfold Funnel.date_scope.
    etrans; apply narrow_subseteq.
  - apply options_bookable. unfold Funnel.time_scope, Funnel.date_scope.
    etrans; [apply narrow_subseteq|]. etrans; apply narrow_subseteq.
Qed.

(** C7 fails as stated: in the scenario V2 is not among the venue options,
    its only row having been dropped with count 0. *)
Lemma zero_availability_prefilter_counterexample :
  ¬ (∀ v, v ∈ Funnel.options_venue Scenario.outcome ↔ v ∈ ["V1"; "V2"]).
Proof.
  intros H. assert ("V2" ∈ Funnel.options_venue Scenario.outcome) as Hin.
  { apply H. right. left. }
  vm_compute in Hin. apply elem_of_cons in Hin as [Heq|Hin]; [discriminate|].
  by apply elem_of_nil in Hin.
Qed.

(** ** Default selections *)

(** C8, as the code has it: on an untouched sidebar the district selection
    is the first district option; the venue selection is every venue option
    up to three options, the first three for four or five, and empty beyond
    five; the date selection is every date option up to five, the first five
    for six to ten, and empty beyond ten; the time selection is every time
    option, however many there are. *)
Theorem default_selection_policy (available : list row) :
  let o := Funnel.compute available Funnel.untouched in
  Funnel.selected_districts o
    = match Funnel.options_district o with
      | [] => []
      | first :: _ => [first]
      end
  ∧ Funnel.selected_venues o
    = (if decide (length (Funnel.options_venue o) ≤ 3)%nat
       then Funnel.options_venue o
       else if decide (length (Funnel.options_venue o) ≤ 5)%nat
            then take 3 (Funnel.options_venue o) else [])
  ∧ Funnel.selected_dates o
    = (if decide (length (Funnel.options_date o) ≤ 5)%nat
       then Funnel.options_date o
       else if decide (length (Funnel.options_date o) ≤ 10)%nat
            then take 5 (Funnel.options_date o) else [])
  ∧ Funnel.selected_times o = Funnel.options_time o.
Proof.
  intros o. split; [|split; [|split]].
  - cbn. by destruct (Funnel.all_districts available).
  - change (Funnel.selected_venues o)
      with (default_venues (Funnel.options_venue o)).
    unfold default_venues.
    repeat case_decide; case_bool_decide; try lia; try done.
    by rewrite take_ge by lia.
  - change (Funnel.selected_dates o)
      with (default_dates (Funnel.options_date o)).
    unfold default_dates.
    repeat case_decide; case_bool_decide; try lia; try done.
    by rewrite take_ge by lia.
  - reflexivity.
Qed.

(** C8 fails as stated: with four venue options the default is the first
    three, neither all of them nor none. *)
Lemma default_selection_policy_counterexample :
  ¬ all_or_nothing default_venues ["V1"; "V2"; "V3"; "V4"].
Proof. intros [H|H]; vm_compute in H; discriminate. Qed.

(** ** Notifications *)

Section Notifications.

Import Monitor.

Lemma notifies_level (st : session_state) (x : run) :
  notifies st x = enable_live_monitor x && target_found (filtered_df x).
Proof.
  unfold notifies, tick.
  by destruct (enable_live_monitor x && target_found (filtered_df x)).
Qed.

Lemma ticks_level (st : session_state) (xs : list run) :
  ticks st xs
  = (λ x, enable_live_monitor x && target_found (filtered_df x)) <$> xs.
Proof.
  revert st. induction xs as [|x xs IH]; intros st; [done|].
  cbn [ticks fmap list_fmap]. by rewrite notifies_level, IH.
Qed.

End Notifications.

(** C1, as the code has it: the decision is level-triggered.  Whatever the
    session has seen before, a run asks for a notification exactly when the
    live monitor is on and the filtered frame of that run is not empty; over
    the matches false, true, true, false, true with the monitor on it fires
    on runs 2, 3 and 5. *)
Theorem notification_level_triggered (st : Monitor.session_state)
    (xs : list Monitor.run) :
  Monitor.ticks st xs
  = (λ x, Monitor.enable_live_monitor x
          && Monitor.target_found (Monitor.filtered_df x)) <$> xs
  ∧ Monitor.ticks Monitor.initial Monitor.five_runs
    = [false; true; true; false; true].
Proof. split; [apply ticks_level|reflexivity]. Qed.

(** C1 fails as stated: on the third of the five runs the match persists
    and the code fires again, where the rising-edge rule stays silent. *)
Lemma notification_edge_triggered_counterexample :
  ¬ Monitor.edge_triggered Monitor.five_runs.
Proof. intros H. vm_compute in H. discriminate. Qed.

(** ** The cache *)

Section Cache.

Import Fetch.

Lemma miss_stores (now : Z) (src : reply) :
  store_after (miss now src) = Some (Entry now (fetch_data_body src))
  ∧ result (miss now src) = fetch_data_body src
  ∧ source_invoked (miss now src) = true.
Proof. done. Qed.

Lemma fetch_data_invoked (now : Z) (src : reply) (c : store) :
  source_invoked (fetch_data now src c) = true →
  fetch_data now src c = miss now src.
Proof.
  unfold fetch_data. destruct c as [e|]; [|done].
  by case_bool_decide.
Qed.

Lemma fetch_data_fresh (now : Z) (src : reply) (e : entry) :
  now - stored_at e < TTL →
  fetch_data now src (Some e) = Call (value e) (Some e) false.
Proof. intros. unfold fetch_data. by rewrite bool_decide_eq_true_2. Qed.

Lemma fetch_data_stale (now : Z) (src : reply) (e : entry) :
  TTL ≤ now - stored_at e →
  fetch_data now src (Some e) = miss now src.
Proof. intros. unfold fetch_data. rewrite bool_decide_eq_false_2; [done|lia]. Qed.

End Cache.

(** C2, as the code has it: a call that asks the data source and fails
    returns [None] and stores that [None] like any other result.  A later
    call less than the TTL after it replays the stored [None] without asking
    the data source; the data source is asked again once the TTL has run out
    or the cache has been cleared. *)
Theorem failed_fetch_is_cached (now1 now2 : Z) (src1 src2 : Fetch.reply)
    (c : Fetch.store) :
  let k1 := Fetch.fetch_data now1 src1 c in
  Fetch.source_invoked k1 = true →
  Fetch.fetch_data_body src1 = None →
  Fetch.result k1 = None
  ∧ Fetch.store_after k1 = Some (Fetch.Entry now1 None)
  ∧ (now2 - now1 < Fetch.TTL →
     Fetch.fetch_data now2 src2 (Fetch.store_after k1)
     = Fetch.Call None (Fetch.store_after k1) false)
  ∧ (Fetch.TTL ≤ now2 - now1 →
     Fetch.fetch_data now2 src2 (Fetch.store_after k1)
     = Fetch.miss now2 src2)
  ∧ Fetch.fetch_data now2 src2 (Fetch.clear (Fetch.store_after k1))
    = Fetch.miss now2 src2.
Proof.
  intros k1 Hinv Hfail. unfold k1.
  rewrite (fetch_data_invoked _ _ _ Hinv).
  unfold Fetch.miss at 1 2 3 4 5. cbn [Fetch.result Fetch.store_after].
  rewrite Hfail. repeat split.
  - intros Hfresh. by rewrite fetch_data_fresh.
  - intros Hstale. by rewrite fetch_data_stale.
Qed.

Lemma failed_fetch_is_cached_witness :
  Fetch.fetch_data 60 (Fetch.Payload (JList [JNull]))
    (Fetch.store_after (Fetch.fetch_data 0 Fetch.RequestException None))
  = Fetch.Call None (Some (Fetch.Entry 0 None)) false
  ∧ Fetch.fetch_data 1800 (Fetch.Payload (JList [JNull]))
      (Fetch.store_after (Fetch.fetch_data 0 Fetch.RequestException None))
    = Fetch.miss 1800 (Fetch.Payload (JList [JNull])).
Proof.
  destruct (failed_fetch_is_cached 0 60 Fetch.RequestException
              (Fetch.Payload (JList [JNull])) None eq_refl eq_refl)
    as (_ & _ & Hfresh & _).
  destruct (failed_fetch_is_cached 0 1800 Fetch.RequestException
              (Fetch.Payload (JList [JNull])) None eq_refl eq_refl)
    as (_ & _ & _ & Hstale & _).
  split.
  - apply Hfresh. reflexivity.
  - apply Hstale. unfold Fetch.TTL. lia.
Defined.

(** C2 fails as stated: after a request error at time 0, the call at time
    60 does not reach the data source, which would have answered. *)
Lemma failed_fetch_retried_counterexample :
  ¬ Fetch.retried_after_failure 0 Fetch.RequestException None
      60 (Fetch.Payload (JList [JNull])).
Proof.
  intros H. unfold Fetch.retried_after_failure in H. cbn in H.
  specialize (H eq_refl eq_refl). discriminate H.
  unfold Fetch.TTL. lia.
Qed.

(** * Further properties of the script *)

(** ** Option lists *)

Lemma NoDup_unique (l : list string) : NoDup (unique l).
Proof.
  induction l as [|x l IH]; [constructor|].
  cbn [unique]. apply NoDup_cons. split.
  - rewrite list_elem_of_filter. by intros [? _].
  - by apply NoDup_filter.
Qed.

Lemma StronglySorted_strict (l : list string) :
  StronglySorted String.le l → NoDup l → StronglySorted (strict String.le) l.
Proof.
  induction 1 as [|x l Hl IH Hx]; intros Hnd; [constructor|].
  apply NoDup_cons in Hnd as [Hnotin Hnd].
  constructor; [by apply IH|].
  apply Forall_forall. intros y Hy.
  pose proof (proj1 (Forall_forall _ _) Hx y Hy) as Hle.
  split; [done|]. intros Hyx.
  assert (x = y) as -> by (by apply (anti_symm String.le)).
  done.
Qed.

(** X1: the options of a multiselect are exactly the values the column
    holds in the rows in scope, missing cells aside, each once and in
    strictly ascending order. *)
Theorem options_sorted_distinct (col : column) (df : list row) :
  StronglySorted (strict String.le) (sorted_options col df)
  ∧ NoDup (sorted_options col df)
  ∧ ∀ v, v ∈ sorted_options col df ↔ ∃ r, r ∈ df ∧ col r = Some v.
Proof.
  assert (NoDup (sorted_options col df)) as Hnd.
  { unfold sorted_options. rewrite merge_sort_Permutation.
    apply NoDup_unique. }
  split; [|split; [done|]].
  - apply StronglySorted_strict; [|done].
    apply StronglySorted_merge_sort; apply _.
  - intros v. apply elem_of_sorted_options.
Qed.

(** ** The filtered frame *)

Lemma narrow_sublist (col : column) (selected : list string)
    (df : list row) :
  narrow col selected df `sublist_of` df.
Proof. rewrite narrow_filter. apply sublist_filter. Qed.

(** X2: the table is cut out of the feed: the filtered frame lists rows of
    the cleaned frame in the feed's order, none twice that is not twice in
    the feed, so it is never longer than the feed. *)
Theorem filtered_rows_in_feed_order (raw_records : list record)
    (ui : Funnel.sidebar) :
  let table :=
    Funnel.filtered (Funnel.compute (available_df (DataFrame raw_records)) ui)
  in
  table `sublist_of` DataFrame raw_records
  ∧ (length table ≤ length raw_records)%nat.
Proof.
  intros table.
  assert (table `sublist_of` DataFrame raw_records) as Hsub.
  { unfold table. cbn [Funnel.filtered Funnel.compute].
    unfold Funnel.filtered_df.
    repeat (etrans; [apply narrow_sublist|]).
    apply sublist_filter. }
  split; [done|].
  apply sublist_length in Hsub.
  unfold DataFrame in Hsub. by rewrite length_fmap in Hsub.
Qed.

Section Offered.

Import Funnel.

(** X3: whatever is selected, a value that a row of the final frame holds
    in a dimension is one of the options offered at that level. *)
Theorem shown_values_are_offered (available : list row) (s : selection)
    (l : level) (r : row) (v : string) :
  r ∈ final_df available s →
  dimension l r = Some v →
  v ∈ options_at available s l.
Proof.
  unfold final_df. rewrite elem_of_filtered_df.
  intros (Hin & H1 & H2 & H3 & H4) Hv.
  destruct l; cbn [dimension] in Hv; cbn [options_at];
    apply elem_of_sorted_options; exists r; (split; [|done]);
    unfold time_scope, date_scope, venue_scope;
    rewrite ?elem_of_narrow; tauto.
Qed.

Lemma shown_values_are_offered_witness :
  "2024-01-01" ∈ options_at Scenario.available_no_venue Scenario.district_A
                   Date.
Proof.
  apply (shown_values_are_offered Scenario.available_no_venue
           Scenario.district_A Date (clean Scenario.no_venue)).
  - vm_compute. right. left.
  - reflexivity.
Defined.

Lemma sorted_options_mono (col : column) (df df' : list row) :
  df ⊆ df' → sorted_options col df ⊆ sorted_options col df'.
Proof.
  intros Hsub v. rewrite !elem_of_sorted_options.
  intros (r & Hr & Hv). exists r. split; [by apply Hsub|done].
Qed.

(** X4: selecting upstream only ever removes options downstream: at every
    level the options under any selection are among the options offered
    when nothing is selected anywhere. *)
Theorem selection_only_removes_options (available : list row)
    (s : selection) (l : level) :
  options_at available s l ⊆ options_at available unrestricted l.
Proof.
  destruct l; cbn [options_at unrestricted districts venues dates];
    [done|apply sorted_options_mono..];
    unfold time_scope, date_scope, venue_scope; cbn [narrow].
  - apply narrow_subseteq.
  - etrans; apply narrow_subseteq.
  - etrans; [apply narrow_subseteq|]. etrans; apply narrow_subseteq.
Qed.

(** X5: narrowing steps commute and repeat harmlessly, so the order in
    which lines 183-190 apply the four selections does not matter. *)
Theorem narrow_commutes (c1 c2 : column) (s1 s2 : list string)
    (df : list row) :
  narrow c1 s1 (narrow c2 s2 df) = narrow c2 s2 (narrow c1 s1 df)
  ∧ narrow c1 s1 (narrow c1 s1 df) = narrow c1 s1 df.
Proof.
  rewrite !narrow_filter, !list_filter_filter. split.
  - apply list_filter_iff. tauto.
  - apply list_filter_iff. tauto.
Qed.

End Offered.

(** ** A run that reaches the filters *)

Lemma narrow_nonempty (col : column) (selected : list string)
    (scope : list row) :
  scope ≠ [] →
  selected ⊆ sorted_options col scope →
  narrow col selected scope ≠ [].
Proof.
  intros Hne Hsub. destruct selected as [|v selected]; [done|].
  assert (v ∈ sorted_options col scope) as Hv by (apply Hsub; left).
  apply elem_of_sorted_options in Hv as (r & Hr & Hc).
  assert (r ∈ narrow col (v :: selected) scope) as Hin.
  { apply elem_of_narrow. split; [done|]. rewrite Hc.
    apply keeps_member. left. }
  intros E. rewrite E in Hin. by apply elem_of_nil in Hin.
Qed.

Lemma filtered_nonempty (available : list row) (ui : Funnel.sidebar) :
  available ≠ [] →
  Funnel.filtered (Funnel.compute available ui) ≠ [].
Proof.
  intros Hne. cbn [Funnel.filtered Funnel.compute].
  unfold Funnel.filtered_df.
  apply narrow_nonempty;
    [|apply multiselect_subseteq; done].
  apply narrow_nonempty;
    [|apply multiselect_subseteq, default_dates_subseteq].
  apply narrow_nonempty;
    [|apply multiselect_subseteq, default_venues_subseteq].
  apply narrow_nonempty;
    [done|apply multiselect_subseteq, default_districts_subseteq].
Qed.

(** X6: the filters never empty the table.  Each multiselect hands back
    entries of the options drawn from the rows still in scope, so whenever
    some row is available the filtered frame has a row, whatever the user
    ticked. *)
Theorem filters_never_empty (available : list row) (ui : Funnel.sidebar) :
  available ≠ [] →
  Funnel.filtered (Funnel.compute available ui) ≠ [].
Proof. apply filtered_nonempty. Qed.

Lemma filters_never_empty_witness :
  Funnel.filtered (Funnel.compute Scenario.available Scenario.ui) ≠ [].
Proof. apply filters_never_empty. discriminate. Defined.

Lemma msg_venue_first (filtered_df : list row) :
  Monitor.msg_venue filtered_df
  = default "Court" (head (dropna Venue_Name_EN filtered_df)).
Proof.
  unfold Monitor.msg_venue.
  by destruct (dropna Venue_Name_EN filtered_df).
Qed.

(** X7: a run that gets past the early stops always draws the table and
    never the notice with its sleep and rerun: the table has at least one
    row, each with a court left; with the monitor on the run asks for a
    notification naming the venue of the first table row that has one
    ("Court" when none has), with the monitor off for none; and it stamps
    the session with its time. *)
Theorem script_always_finds (raw_records : list record)
    (ui : Funnel.sidebar) (enable_live_monitor : bool) (now : Z)
    (st : Monitor.session_state) (p : Page.pass) :
  Page.script raw_records ui enable_live_monitor now st = inr p →
  ∃ table,
    table ≠ []
    ∧ Forall (λ r, 1 ≤ Available_Courts r) table
    ∧ Page.shown p = Page.Found (length table) table
    ∧ Page.alert p
      = (if enable_live_monitor
         then Some (Monitor.notification_body
                      (default "Court"
                         (head (dropna Venue_Name_EN table))))
         else None)
    ∧ Page.session p = Monitor.Session (Some now).
Proof.
  unfold Page.script.
  destruct (load_frame raw_records) as [h|available] eqn:Hload; [done|].
  apply load_frame_inr in Hload as [-> Hne].
  pose proof (filtered_nonempty _ ui Hne) as Htable.
  assert (Forall (λ r, 1 ≤ Available_Courts r)
            (Funnel.filtered
               (Funnel.compute (available_df (DataFrame raw_records)) ui)))
    as Hpos.
  { apply Forall_forall. intros r Hr.
    apply filtered_df_subseteq, elem_of_available_df in Hr as [_ ?]. done. }
  cbv zeta.
  remember (Funnel.filtered
              (Funnel.compute (available_df (DataFrame raw_records)) ui))
    as table eqn:E.
  clear E. intros [= <-].
  exists table. split; [done|split; [done|]].
  cbn [Page.shown Page.alert Page.session].
  unfold Page.render, Monitor.tick.
  cbn [Monitor.filtered_df Monitor.enable_live_monitor Monitor.clock].
  rewrite <- msg_venue_first.
  destruct table as [|r table']; [done|].
  by destruct enable_live_monitor.
Qed.

Lemma script_always_finds_witness :
  ∃ table,
    table ≠ []
    ∧ Forall (λ r, 1 ≤ Available_Courts r) table
    ∧ Page.shown
        (Page.Pass (Monitor.Session (Some 5))
           (Some "Go book at V1 now!") (Page.Found 1 Scenario.available))
      = Page.Found (length table) table
    ∧ Page.alert
        (Page.Pass (Monitor.Session (Some 5))
           (Some "Go book at V1 now!") (Page.Found 1 Scenario.available))
      = Some (Monitor.notification_body
                (default "Court" (head (dropna Venue_Name_EN table))))
    ∧ Page.session
        (Page.Pass (Monitor.Session (Some 5))
           (Some "Go book at V1 now!") (Page.Found 1 Scenario.available))
      = Monitor.Session (Some 5).
Proof.
  apply (script_always_finds [Scenario.v1; Scenario.v2] Scenario.ui true 5
           Monitor.initial).
  reflexivity.
Defined.

(** ** The early stops *)

Lemma has_column_nonempty {A} (cell : record → A) (carries : A → bool)
    (raw_records : list record) :
  has_column cell carries raw_records = true → raw_records ≠ [].
Proof. by destruct raw_records. Qed.

(** X8: what ends a run early and what lets it through, for a feed whose
    count cells come with their reading.  A run reaches the filters exactly
    when the feed carries all five keys somewhere, no count is non-finite
    and some row has a court left, and then works on exactly those rows; an
    empty feed gives the no-data warning; a feed without the count key
    raises KeyError and one with a non-finite count raises on the cast; a
    feed whose counts are all zero or below gives the no-availability
    notice, absent text columns notwithstanding. *)
Theorem load_frame_outcomes (raw_records : list record) :
  (∀ available,
     load_frame raw_records = inr available
     ↔ five_columns raw_records = true
       ∧ forallb (λ r, castable (raw_count r)) raw_records = true
       ∧ available = available_df (DataFrame raw_records)
       ∧ available ≠ [])
  ∧ (load_frame raw_records = inl NoDataLoaded ↔ raw_records = [])
  ∧ (load_frame raw_records = inl (KeyError "Available_Courts")
     ↔ raw_records ≠ []
       ∧ has_column raw_count carries_count raw_records = false)
  ∧ (load_frame raw_records = inl IntCastingNaNError
     ↔ has_column raw_count carries_count raw_records = true
       ∧ forallb (λ r, castable (raw_count r)) raw_records = false)
  ∧ (load_frame raw_records = inl NoAvailability
     ↔ has_column raw_count carries_count raw_records = true
       ∧ forallb (λ r, castable (raw_count r)) raw_records = true
       ∧ available_df (DataFrame raw_records) = []).
Proof.
  unfold load_frame, five_columns.
  destruct raw_records as [|r rs]; [by repeat split; intros; intuition|].
  destruct (has_column raw_count carries_count (r :: rs)); cbn [negb andb];
    [|by repeat split; intros; intuition].
  destruct (forallb (λ r, castable (raw_count r)) (r :: rs)); cbn [negb];
    [|by repeat split; intros; intuition].
  destruct (available_df (DataFrame (r :: rs))) as [|x xs];
    [by repeat split; intros; intuition|].
  destruct (has_column raw_district _ _); cbn [negb andb];
    [|by repeat split; intros; intuition].
  destruct (has_column raw_venue _ _); cbn [negb andb];
    [|by repeat split; intros; intuition].
  destruct (has_column raw_date _ _); cbn [negb andb];
    [|by repeat split; intros; intuition].
  destruct (has_column raw_time _ _); cbn [negb andb];
    [|by repeat split; intros; intuition].
  split; [|by repeat split; intros; intuition].
  intros available. split.
  - by intros [= <-].
  - by intros (_ & _ & -> & _).
Qed.

(** ** The cache over many calls *)

Section ManyCalls.

Import Fetch Polling.





End ManyCalls.


(** ** Keys that [extract_records] does not read *)

Lemma scan_keys_agree (keys : list string) (d1 d2 : gmap string json) :
  (∀ k, k ∈ keys → d1 !! k = d2 !! k) → scan_keys keys d1 = scan_keys keys d2.
Proof.
  induction keys as [|k keys IH]; intros Hsame; [done|].
  cbn [scan_keys]. rewrite (Hsame k) by left.
  rewrite IH; [done|]. intros k' Hk'. apply Hsame. by right.
Qed.

(** X10: the result for an object depends on nothing but what it holds
    under data, contents, result, items and records: two objects that agree
    there give the same records, so adding, changing or dropping any other
    key changes nothing. *)
Theorem extract_records_other_keys (d1 d2 : gmap string json) :
  (∀ k, k ∈ RECORD_KEYS → d1 !! k = d2 !! k) →
  extract_records (JDict d1) = extract_records (JDict d2).
Proof. apply scan_keys_agree. Qed.

Lemma extract_records_other_keys_witness :
  extract_records
    (JDict (<["status" := JList [JNull]]> (<["items" := JList [JNum 2]]> ∅)))
  = extract_records (JDict (<["items" := JList [JNum 2]]> ∅)).
Proof.
  apply extract_records_other_keys.
  intros k Hk. apply lookup_insert_ne. intros <-.
  repeat (apply elem_of_cons in Hk as [Hk|Hk]; [discriminate|]).
  by apply elem_of_nil in Hk.
Defined.

(** ** The escaped notification text *)

Section Escaping.

Import Notify.

Local Open Scope N_scope.

Lemma forallb_below (f : N → bool) (b : nat) :
  forallb f (N.of_nat <$> seq 0 b) = true →
  ∀ n, n < N.of_nat b → f n = true.
Proof.
  intros Hall n Hn.
  apply Is_true_true, forallb_True in Hall.
  apply Is_true_true. apply (proj1 (Forall_forall _ _) Hall).
  apply list_elem_of_fmap. exists (N.to_nat n). split; [lia|].
  apply elem_of_seq. lia.
Qed.

Lemma append_cons (c : ascii) (s t : string) :
  String c s +:+ t = String c (s +:+ t).
Proof. reflexivity. Qed.

Lemma append_assoc (s t u : string) : (s +:+ t) +:+ u = s +:+ (t +:+ u).
Proof. induction s as [|c s IH]; [done|]. by rewrite !append_cons, IH. Qed.

Lemma all_printable_app (s t : string) :
  all_printable (s +:+ t) = all_printable s && all_printable t.
Proof.
  induction s as [|c s IH]; [done|].
  rewrite append_cons. cbn [all_printable]. by rewrite IH, andb_assoc.
Qed.

Lemma printable_hex_digit (x : N) : printable (hex_digit (x mod 16)) = true.
Proof.
  apply (forallb_below (λ d, printable (hex_digit d)) 16); [done|].
  by apply N.mod_lt.
Qed.

Lemma all_printable_u_escape (n : N) : all_printable (u_escape n) = true.
Proof.
  unfold u_escape, hex4. cbn [all_printable].
  by rewrite !printable_hex_digit.
Qed.

Lemma all_printable_replace (n : N) : all_printable (replace n) = true.
Proof.
  unfold replace.
  repeat (match goal with |- context [if ?b then _ else _] => destruct b end;
          [done|]).
  destruct (n <? 65536); [apply all_printable_u_escape|].
  cbv zeta. by rewrite all_printable_app, !all_printable_u_escape.
Qed.

Lemma must_escape_false (n : N) :
  must_escape n = false → 32 ≤ n ≤ 126 ∧ n ≠ 34 ∧ n ≠ 92.
Proof.
  unfold must_escape. rewrite !orb_false_iff.
  intros [[[H92 H34] Hlo] Hhi].
  apply N.eqb_neq in H92, H34. apply N.ltb_ge in Hlo, Hhi. lia.
Qed.

Lemma N_of_ascii_of_N (n : N) : n < 256 → N_of_ascii (ascii_of_N n) = n.
Proof. apply N_ascii_embedding. Qed.

Lemma all_printable_encode_char (n : N) :
  all_printable (encode_char n) = true.
Proof.
  unfold encode_char. destruct (must_escape n) eqn:E;
    [apply all_printable_replace|].
  apply must_escape_false in E as (Hn & _).
  cbn [all_printable]. unfold printable.
  rewrite N_of_ascii_of_N by lia.
  rewrite andb_true_r. apply andb_true_intro.
  split; apply N.leb_le; lia.
Qed.

(** X11: whatever the venue name holds, the escaped body consists of
    characters from space to tilde only: no line break, no control
    character and no byte outside ASCII reaches the script. *)
Theorem body_escaped_printable (venue_name : str) :
  all_printable (body_escaped venue_name) = true.
Proof.
  unfold body_escaped, dumps. generalize (body venue_name). intros s.
  cbn [all_printable]. rewrite all_printable_app.
  cbn. rewrite andb_true_r.
  induction s as [|n s IH]; [done|].
  cbn [encode_chars]. by rewrite all_printable_app, all_printable_encode_char.
Qed.

Lemma encode_chars_app (s t : str) :
  encode_chars (s ++ t) = encode_chars s +:+ encode_chars t.
Proof.
  induction s as [|n s IH]; [done|].
  cbn [app encode_chars]. by rewrite IH, append_assoc.
Qed.

Lemma encode_chars_plain (s : str) :
  forallb plain s = true → encode_chars s = ascii_text s.
Proof.
  induction s as [|n s IH]; [done|].
  cbn [forallb]. intros [Hn Hs]%andb_true_iff.
  cbn [encode_chars ascii_text]. rewrite IH by done.
  unfold encode_char.
  assert (must_escape n = false) as ->; [|done].
  unfold plain in Hn. unfold must_escape.
  apply andb_true_iff in Hn as [[[Hlo Hhi]%andb_true_iff H34]%andb_true_iff H92].
  apply negb_true_iff in H34, H92. rewrite H34, H92. cbn [orb].
  apply N.leb_le in Hlo, Hhi.
  apply orb_false_iff. split; apply N.ltb_ge; lia.
Qed.

(** X12: a venue name made of characters from space to tilde other than
    the quote and the backslash goes into the script as it is, between the
    words of the body and two quotes: the angle brackets and the slash of
    markup are among the characters left untouched. *)
Theorem body_escaped_plain (venue_name : str) :
  forallb plain venue_name = true →
  body_escaped venue_name
  = String quote
      ("Go book at " +:+ ascii_text venue_name +:+ " now!"
       +:+ String quote EmptyString).
Proof.
  intros Hplain. unfold body_escaped, dumps, body. f_equal.
  rewrite !encode_chars_app, (encode_chars_plain venue_name) by done.
  by rewrite !append_assoc.
Qed.

Lemma body_escaped_plain_witness :
  body_escaped (literal "</script>")
  = String quote
      ("Go book at " +:+ ascii_text (literal "</script>") +:+ " now!"
       +:+ String quote EmptyString).
Proof. apply body_escaped_plain. reflexivity. Defined.

End Escaping.

Section ReadingBack.

Import Notify.

Local Open Scope N_scope.

Lemma hex_value_hex_digit (x : N) :
  hex_value (hex_digit (x mod 16)) = Some (x mod 16).
Proof.
  pose proof (forallb_below
                (λ d, match hex_value (hex_digit d) with
                      | Some v => v =? d
                      | None => false
                      end) 16 eq_refl (x mod 16)) as H.
  cbv beta in H.
  destruct (hex_value (hex_digit (x mod 16))) as [v|].
  - f_equal. apply N.eqb_eq, H. by apply N.mod_lt.
  - discriminate H. by apply N.mod_lt.
Qed.

Lemma hex4_value_hex4 (n : N) :
  n < 65536 →
  hex4_value (hex_digit (n / 4096 mod 16)) (hex_digit (n / 256 mod 16))
    (hex_digit (n / 16 mod 16)) (hex_digit (n mod 16))
  = Some n.
Proof.
  intros Hn. unfold hex4_value. rewrite !hex_value_hex_digit.
  cbn [mbind option_bind]. f_equal.
  zify. Z.to_euclidean_division_equations. lia.
Qed.

Lemma read_chars_u_escape (n : N) (t : string) :
  n < 65536 → read_chars (u_escape n +:+ t) = push n (read_chars t).
Proof.
  intros Hn. unfold u_escape, hex4. rewrite !append_cons.
  change (EmptyString +:+ t) with t.
  cbn [read_chars].
  change (N_of_ascii backslash) with 92.
  change (N_of_ascii "u") with 117.
  cbn [N.eqb Pos.eqb].
  by rewrite hex4_value_hex4.
Qed.

Lemma read_chars_plain (n : N) (t : string) :
  must_escape n = false →
  read_chars (String (ascii_of_N n) t) = push n (read_chars t).
Proof.
  intros (Hn & H34 & H92)%must_escape_false.
  cbn [read_chars]. rewrite N_of_ascii_of_N by lia.
  apply N.eqb_neq in H34, H92. rewrite H34, H92.
  assert ((32 <=? n) && (n <=? 126) = true) as ->; [|done].
  apply andb_true_intro. split; apply N.leb_le; lia.
Qed.

Lemma lor_high (y : N) : y < 1024 → N.lor 55296 y = 55296 + y.
Proof.
  intros Hy. apply N.eqb_eq.
  by apply (forallb_below (λ y, N.lor 55296 y =? 55296 + y) 1024).
Qed.

Lemma lor_low (y : N) : y < 1024 → N.lor 56320 y = 56320 + y.
Proof.
  intros Hy. apply N.eqb_eq.
  by apply (forallb_below (λ y, N.lor 56320 y =? 56320 + y) 1024).
Qed.

Lemma surrogates (m : N) :
  m < 1048576 →
  N.lor 55296 (N.land (N.shiftr m 10) 1023) = 55296 + m / 1024
  ∧ N.lor 56320 (N.land m 1023) = 56320 + m mod 1024.
Proof.
  intros Hm. change 1023 with (N.ones 10).
  rewrite !N.land_ones, N.shiftr_div_pow2.
  change (2 ^ 10) with 1024.
  assert (m / 1024 < 1024) as Hq
    by (apply N.Div0.div_lt_upper_bound; lia).
  rewrite (N.mod_small (m / 1024)) by done.
  split; [by apply lor_high|].
  apply lor_low. by apply N.mod_lt.
Qed.

Lemma read_chars_encode_char (n : N) (t : string) :
  n < 1114112 →
  read_chars (encode_char n +:+ t)
  = foldr push (read_chars t) (utf16_units n).
Proof.
  intros Hn. unfold encode_char.
  destruct (must_escape n) eqn:E.
  2:{ rewrite append_cons. change (EmptyString +:+ t) with t.
      rewrite read_chars_plain by done.
      apply must_escape_false in E as (? & _).
      unfold utf16_units.
      by assert ((n <? 65536) = true) as -> by (apply N.ltb_lt; lia). }
  destruct (N.eqb_spec n 92) as [->|H92]; [reflexivity|].
  destruct (N.eqb_spec n 34) as [->|H34]; [reflexivity|].
  destruct (N.eqb_spec n 8) as [->|H8]; [reflexivity|].
  destruct (N.eqb_spec n 12) as [->|H12]; [reflexivity|].
  destruct (N.eqb_spec n 10) as [->|H10]; [reflexivity|].
  destruct (N.eqb_spec n 13) as [->|H13]; [reflexivity|].
  destruct (N.eqb_spec n 9) as [->|H9]; [reflexivity|].
  unfold replace, utf16_units.
  apply N.eqb_neq in H92, H34, H8, H12, H10, H13, H9.
  rewrite H92, H34, H8, H12, H10, H13, H9.
  destruct (N.ltb_spec n 65536) as [Hlt|Hge].
  - by rewrite read_chars_u_escape.
  - cbv zeta.
    destruct (surrogates (n - 65536)) as [-> ->]; [lia|].
    rewrite append_assoc.
    assert ((n - 65536) / 1024 < 1024)
      by (apply N.Div0.div_lt_upper_bound; lia).
    assert ((n - 65536) mod 1024 < 1024) by (by apply N.mod_lt).
    by rewrite !read_chars_u_escape by lia.
Qed.

Lemma foldr_push (us vs : list N) (rest : string) :
  foldr push (Some (vs, rest)) us = Some (us ++ vs, rest).
Proof. induction us as [|u us IH]; [done|]. cbn [foldr]. by rewrite IH. Qed.

Lemma read_chars_encode_chars (s : str) (rest : string) :
  Forall (λ n, n < 1114112) s →
  read_chars (encode_chars s +:+ String quote rest) = Some (utf16 s, rest).
Proof.
  induction 1 as [|n s Hn _ IH]; [reflexivity|].
  cbn [encode_chars]. rewrite append_assoc.
  by rewrite read_chars_encode_char, IH, foldr_push.
Qed.

Lemma literal_valid (s : string) : Forall (λ n, n < 1114112) (literal s).
Proof.
  unfold literal. apply Forall_fmap, Forall_forall. intros c _. cbn.
  pose proof (N_ascii_bounded c). lia.
Qed.

(** X13: the escaping loses nothing and adds nothing.  Decoded as a JSON
    string, the escaped body followed by any text gives back the body, code
    unit for code unit (a code point beyond 0xFFFF as its surrogate pair),
    and the string ends at the closing quote that [json.dumps] wrote.  This
    is a round trip of the serialised text alone, not a statement about the
    HTML parser around it (X12 shows what reaches that parser unescaped). *)
Theorem body_escaped_reads_back (venue_name : str) (rest : string) :
  Forall (λ n, n < 1114112) venue_name →
  read_literal (body_escaped venue_name +:+ rest)
  = Some (utf16 (body venue_name), rest).
Proof.
  intros Hvalid. unfold body_escaped, dumps.
  rewrite append_cons, append_assoc, append_cons.
  change (EmptyString +:+ rest) with rest.
  cbn [read_literal]. change (N_of_ascii quote =? 34) with true.
  cbv iota. apply read_chars_encode_chars.
  unfold body. repeat apply Forall_app_2; auto using literal_valid.
Qed.

Lemma body_escaped_reads_back_witness :
  read_literal (body_escaped [34; 92; 10; 233; 128190] +:+ ", icon")
  = Some (utf16 (body [34; 92; 10; 233; 128190]), ", icon").
Proof.
  apply body_escaped_reads_back.
  repeat (constructor; [reflexivity|]). constructor.
Defined.

End ReadingBack.
